(** * http-log-format: header filtering, request/response formatting

    A shallow embedding of [src/es/index.js].  JavaScript values are
    primitives or references into a heap of objects; every object
    literal and every object built by lodash is a fresh allocation, so
    that aliasing and the absence of mutation are visible in the model.
    Functions that can throw or allocate run in a small state-and-error
    monad over the heap. *)

From stdpp Require Import gmap strings list pretty.

Open Scope string_scope.
Open Scope list_scope.

(** ** Values and objects *)

Definition loc := nat.

(** [VNum] carries the integer-valued numbers (status codes, ports) in
    the safe-integer range, where JavaScript prints a number in plain
    decimal.  Strings are sequences of one-byte characters. *)
Inductive value : Type :=
  | VUndefined
  | VNull
  | VBool (b : bool)
  | VNum (n : Z)
  | VStr (s : string)
  | VRef (l : loc).

#[global] Instance value_eq_dec : EqDecision value.
Proof. solve_decision. Defined.

(** An object is its table of own string-keyed properties.  A property
    may be present with the value [VUndefined].  Prototype chains,
    accessors and symbol keys are not part of the model. *)
Abbreviation object := (gmap string value).

(** The heap only ever grows in this program: a location is the index
    at which the object was allocated. *)
Abbreviation heap := (list object).

(** ** The monad: heap state and exceptions *)

Inductive error : Type :=
  | TypeError
  | Thrown (v : value).

Inductive outcome (A : Type) : Type :=
  | Ok (a : A) (h : heap)
  | Throw (e : error) (h : heap).
Arguments Ok {A} a h.
Arguments Throw {A} e h.

Definition M (A : Type) : Type := heap → outcome A.

Definition ret {A} (a : A) : M A := λ h, Ok a h.

Definition bind {A B} (m : M A) (k : A → M B) : M B :=
  λ h, match m h with
       | Ok a h' => k a h'
       | Throw e h' => Throw e h'
       end.

Definition throw {A} (e : error) : M A := λ h, Throw e h.

Notation "'let*' x ':=' m 'in' k" := (bind m (λ x, k))
  (at level 10, x name, m at level 100, k at level 200).

(** [{ ... }]: an object literal allocates. *)
Definition alloc (o : object) : M value :=
  λ h, Ok (VRef (length h)) (h ++ [o]).

(** ** Coercions of the language *)

(** Truthiness, as tested by [?:] and [||]. *)
Definition truthy (v : value) : bool :=
  match v with
  | VUndefined | VNull => false
  | VBool b => b
  | VNum n => negb (n =? 0)%Z
  | VStr s => negb (String.eqb s "")
  | VRef _ => true
  end.

(** [ToString], as applied by template literals and by property keys.
    Objects here are plain objects without a [toString] of their own. *)
Definition to_string (v : value) : string :=
  match v with
  | VUndefined => "undefined"
  | VNull => "null"
  | VBool true => "true"
  | VBool false => "false"
  | VNum n => pretty n
  | VStr s => s
  | VRef _ => "[object Object]"
  end.

(** [a || b], with [b] evaluated only when [a] is falsy. *)
Definition or_else (a : value) (b : M value) : M value :=
  if truthy a then ret a else b.

(** ** Property access *)

(** The characters of a string primitive, under their index keys. *)
Definition string_chars (s : string) : object :=
  list_to_map (imap (λ i c, (pretty i, VStr (String c EmptyString)))
                    (Strings.String.list_ascii_of_string s)).

(** Enumerable own properties of a value, as seen through [Object(v)]. *)
Definition enum_props (h : heap) (v : value) : object :=
  match v with
  | VRef l => default ∅ (h !! l)
  | VStr s => string_chars s
  | _ => ∅
  end.

(** All own properties: a string also has its [length]. *)
Definition own_props (h : heap) (v : value) : object :=
  match v with
  | VStr s => <["length" := VNum (Z.of_nat (String.length s))]> (string_chars s)
  | _ => enum_props h v
  end.

(** [o.k] on an object table. *)
Definition prop (o : object) (k : string) : value :=
  default VUndefined (o !! k).

Definition nullish (v : value) : bool :=
  match v with
  | VUndefined | VNull => true
  | _ => false
  end.

(** [v.k] and [const { k } = v]: reading a property of [undefined] or
    [null] throws a [TypeError]; a missing property reads [undefined]. *)
Definition get_prop (v : value) (k : string) : M value :=
  λ h, if nullish v then throw TypeError h
       else ret (prop (own_props h v) k) h.

(** ** lodash *)

(** Modelled from the spec: [pick] and [omit] are imported from lodash
    and are not in the source tree.  They are steps (1) and (3) of the
    filter as the spec describes it, and what lodash documents: both
    build a new object and leave their argument alone.  A path is
    coerced to a property key the way the language coerces any key;
    the deep-path syntax ([a.b], [a[0]]) is left out, names are plain
    keys.  On [null] and [undefined] both return a new empty object. *)

(** Modelled from the spec: [_.pick(object, paths)], a new object with
    the listed properties that [object] has; properties listed and
    not found are not created. *)
Definition pick_props (o : object) (paths : list value) : object :=
  foldl (λ result p,
           match o !! to_string p with
           | Some v => <[to_string p := v]> result
           | None => result
           end) ∅ paths.

Definition pick (obj : value) (paths : list value) : M value :=
  λ h, alloc (pick_props (own_props h obj) paths) h.

(** Modelled from the spec: [_.omit(object, paths)], a new object, a
    copy of the enumerable properties of [object] from which the
    listed ones are then deleted; a path that names no property
    deletes nothing.  [paths] may be [undefined]. *)
Definition omit_props (o : object) (paths : list value) : object :=
  foldr (λ p result, delete (to_string p) result) o paths.

Definition omit (obj : value) (paths : option (list value)) : M value :=
  λ h, alloc (omit_props (enum_props h obj) (default [] paths)) h.

(** ** filterHeaders *)

(** The options object [{ whitelistHeaders, blacklistHeaders }] is only
    ever destructured; it is the record of its two fields, [None]
    standing for [undefined]. *)
Record options : Type := Options {
  whitelistHeaders : option (list value);
  blacklistHeaders : option (list value);
}.

(** The parameter default [= {}]. *)
Definition no_options : options := Options None None.

Definition filterHeaders (headers : value) (opts : option options) : M value :=
  let '(Options whitelistHeaders blacklistHeaders) := default no_options opts in
  let* whitelistedHeaders :=
    match whitelistHeaders with
    | Some wl => pick headers wl
    | None => ret headers
    end in
  let* blacklistedHeaders := omit whitelistedHeaders blacklistHeaders in
  ret blacklistedHeaders.

(** ** formatRequest *)

Definition formatRequest (request : value) (opts : option options) : M value :=
  let '(Options whitelistHeaders blacklistHeaders) := default no_options opts in
  let* httpVersion := get_prop request "httpVersion" in
  let* method := get_prop request "method" in
  let* timestamp := get_prop request "timestamp" in
  let* request_url := get_prop request "url" in
  let* url := or_else request_url (get_prop request "path") in
  let* request_headers := get_prop request "headers" in
  let* receivedHeaders :=
    or_else request_headers
      (let* request__headers := get_prop request "_headers" in
       or_else request__headers (alloc ∅)) in
  let* headers :=
    filterHeaders receivedHeaders
      (Some (Options whitelistHeaders blacklistHeaders)) in
  let* request_socket := get_prop request "socket" in
  let* socket := or_else request_socket (alloc ∅) in
  let* remoteAddress := get_prop socket "remoteAddress" in
  let* remotePort := get_prop socket "remotePort" in
  let* localAddress := get_prop socket "localAddress" in
  let* localPort := get_prop socket "localPort" in
  alloc {[ "timestamp" := timestamp;
           "httpVersion" := httpVersion;
           "method" := method;
           "url" := url;
           "headers" := headers;
           "remoteAddress" := remoteAddress;
           "remotePort" := remotePort;
           "localAddress" := localAddress;
           "localPort" := localPort ]}.

(** ** stringifyRequest *)

(** The destructuring default [headers = {}] applies when the property
    reads [undefined], and only then. *)
Definition stringifyRequest (request : value) : M string :=
  let* method := get_prop request "method" in
  let* url := get_prop request "url" in
  let* request_headers := get_prop request "headers" in
  let* headers :=
    match request_headers with
    | VUndefined => alloc ∅
    | _ => ret request_headers
    end in
  let* host := get_prop headers "host" in
  ret (to_string method +:+ " " +:+ to_string host +:+ to_string url).

Section Collaborators.

(** [httpHeaders(response, true)] from the package http-headers: it
    returns the parsed headers of a response, or something falsy; it
    may allocate and it may throw. *)
Variable httpHeaders : value → bool → M value.

(** [http.STATUS_CODES], the table of reason phrases of Node's [http]
    module, keyed by the status code as a property name. *)
Variable STATUS_CODES : object.

(** ** formatResponse *)

Definition formatResponse (response : value) (opts : option options) : M value :=
  let '(Options whitelistHeaders blacklistHeaders) := default no_options opts in
  let* statusCode := get_prop response "statusCode" in
  let* response_headers := get_prop response "headers" in
  let* receivedHeaders :=
    or_else response_headers
      (let* parsed := httpHeaders response true in
       or_else parsed (alloc ∅)) in
  let* headers :=
    filterHeaders receivedHeaders
      (Some (Options whitelistHeaders blacklistHeaders)) in
  let* timestamp := get_prop response "timestamp" in
  let* responseTime := get_prop response "responseTime" in
  alloc {[ "timestamp" := timestamp;
           "statusCode" := statusCode;
           "headers" := headers;
           "responseTime" := responseTime ]}.

(** ** stringifyResponse *)

Definition stringifyResponse (response : value) : M string :=
  let* statusCode := get_prop response "statusCode" in
  let statusMsg := prop STATUS_CODES (to_string statusCode) in
  ret (to_string statusCode +:+ " (" +:+ to_string statusMsg +:+ ")").

End Collaborators.

(** ** Reading results *)

(** The object a call returned, read from the final heap. *)
Definition deref (r : outcome value) : option object :=
  match r with
  | Ok (VRef l) h => h !! l
  | _ => None
  end.

(** Property [k] of the returned object. *)
Definition field (r : outcome value) (k : string) : option value :=
  deref r ≫= (.!! k).

(** The object held in property [k] of the returned object. *)
Definition field_object (r : outcome value) (k : string) : option object :=
  match r with
  | Ok (VRef l) h =>
      match h !! l ≫= (.!! k) with
      | Some (VRef lk) => h !! lk
      | _ => None
      end
  | _ => None
  end.

(** A call returns, and its result and final heap satisfy [Q]. *)
Definition returns {A} (m : M A) (h : heap) (Q : A → heap → Prop) : Prop :=
  ∃ a h', m h = Ok a h' ∧ Q a h'.

(** The keys a list of paths denotes. *)
Definition keys (paths : list value) : list string := to_string <$> paths.

(** What [filterHeaders] builds from the own and the enumerable
    properties of its [headers] argument: the object picked for the
    whitelist, when there is one, and the object returned. *)
Definition picked (own : object) (opts : option options) : list object :=
  match whitelistHeaders (default no_options opts) with
  | Some wl => [pick_props own wl]
  | None => []
  end.

Definition filtered (own enum : object) (opts : option options) : object :=
  omit_props
    (match whitelistHeaders (default no_options opts) with
     | Some wl => pick_props own wl
     | None => enum
     end)
    (default [] (blacklistHeaders (default no_options opts))).

(** Membership in an optional list of header names. *)
Definition listed (names : option (list string)) (k : string) : Prop :=
  match names with
  | Some l => k ∈ l
  | None => False
  end.

(** A policy whose lists hold header names. *)
Definition names (l : list string) : list value := VStr <$> l.

Definition policy (allow deny : option (list string)) : option options :=
  Some (Options (names <$> allow) (names <$> deny)).

(** The same options with every list element replaced by the string it
    is coerced to. *)
Definition coerce (paths : list value) : list value :=
  (λ p, VStr (to_string p)) <$> paths.

Definition coerced (opts : options) : options :=
  Options (coerce <$> whitelistHeaders opts)
          (coerce <$> blacklistHeaders opts).

(** ** Sample data *)

(** The headers of the normalization scenario. *)
Definition sample_headers : object :=
  {[ "host" := VStr "a.com";
     "authorization" := VStr "secret";
     "x-req-id" := VStr "1" ]}.

(** Headers with a name that is also the decimal form of a number. *)
Definition numbered_headers : object :=
  {[ "1" := VStr "x"; "host" := VStr "a.com" ]}.

(** An outgoing request: no [headers], the headers under [_headers]. *)
Definition outgoing_request : heap :=
  [ {[ "_headers" := VRef 1 ]}; {[ "host" := VStr "a.com" ]} ].

(** An incoming request: [headers] is there, and wins over [_headers]. *)
Definition incoming_request : heap :=
  [ {[ "headers" := VRef 1; "_headers" := VRef 2 ]};
    {[ "host" := VStr "a.com" ]};
    {[ "host" := VStr "b.org" ]} ].

(** A request with no property at all. *)
Definition bare_request : heap := [ ∅ ].

(** A request whose only header is spelled [Host]. *)
Definition capitalized_request : heap :=
  [ {[ "method" := VStr "GET"; "url" := VStr "/path"; "headers" := VRef 1 ]};
    {[ "Host" := VStr "example.com" ]} ].

(** The request of the [stringifyRequest] scenario. *)
Definition sample_request : heap :=
  [ {[ "method" := VStr "GET";
       "url" := VStr "/path?foo=bar";
       "headers" := VRef 1 ]};
    {[ "host" := VStr "example.com" ]} ].

(** Modelled from the spec: [http.STATUS_CODES] belongs to Node and is
    not in the source tree; these are the two entries the spec names
    (201 and 404), enough to run the scenarios. *)
Definition STATUS_CODES_excerpt : object :=
  {[ "201" := VStr "Created"; "404" := VStr "Not Found" ]}.

(** A collaborator that finds no headers. *)
Definition no_parsed_headers : value → bool → M value :=
  λ _ _, ret VUndefined.

(** ** Compositions *)

(** Filtering what a first filtering returned:
    [filterHeaders(filterHeaders(headers, first), second)]. *)
Definition filter_twice (headers : value) (first second : option options)
    : M value :=
  let* once := filterHeaders headers first in
  filterHeaders once second.

(** Two optional lists that are both absent, or both present and name
    the same keys, in any order and with any repetition. *)
Definition same_keys (a b : option (list value)) : Prop :=
  match a, b with
  | Some x, Some y => ∀ k, k ∈ keys x ↔ k ∈ keys y
  | None, None => True
  | _, _ => False
  end.

(** A header is kept by a pair of lists. *)
Definition kept (opts : option options) (k : string) : Prop :=
  match whitelistHeaders (default no_options opts) with
  | Some wl => k ∈ keys wl
  | None => True
  end
  ∧ k ∉ keys (default [] (blacklistHeaders (default no_options opts))).

(** Normalizing what a first normalization returned. *)
Definition format_twice (request : value) (opts : option options) : M value :=
  let* record := formatRequest request opts in
  formatRequest record opts.

(** Normalizing a request, then summarising the record. *)
Definition summarize_request (request : value) (opts : option options)
    : M string :=
  let* record := formatRequest request opts in
  stringifyRequest record.

(** The nine fields of a request record. *)
Definition request_fields : gset string :=
  {[ "timestamp"; "httpVersion"; "method"; "url"; "headers";
     "remoteAddress"; "remotePort"; "localAddress"; "localPort" ]}.

(** An incoming request with its socket. *)
Definition connected_request : heap :=
  [ {[ "httpVersion" := VStr "1.1";
       "method" := VStr "GET";
       "url" := VStr "/";
       "headers" := VRef 1;
       "socket" := VRef 2 ]};
    {[ "host" := VStr "a.com"; "authorization" := VStr "secret" ]};
    {[ "remoteAddress" := VStr "10.0.0.7";
       "remotePort" := VNum 51234;
       "localAddress" := VStr "10.0.0.1";
       "localPort" := VNum 443 ]} ].

(** A request whose [headers] property is [null]. *)
Definition null_headers_request : heap :=
  [ {[ "method" := VStr "GET"; "url" := VStr "/x"; "headers" := VNull ]} ].

(** The four fields of a response record. *)
Definition response_fields : gset string :=
  {[ "timestamp"; "statusCode"; "headers"; "responseTime" ]}.

(** A collaborator that parses the headers [o] out of any response. *)
Definition parser_of (o : object) : value → bool → M value :=
  λ _ _, alloc o.

(** A collaborator that fails. *)
Definition failing_parser : value → bool → M value :=
  λ _ _, throw (Thrown (VStr "malformed header")).

(** An incoming response, with parsed headers and the two fields a
    caller may attach. *)
Definition incoming_response : heap :=
  [ {[ "statusCode" := VNum 201;
       "headers" := VRef 1;
       "timestamp" := VNum 1700000000000;
       "responseTime" := VNum 12 ]};
    {[ "content-type" := VStr "text/html"; "set-cookie" := VStr "sid=1" ]} ].

(** A server response: a status code and no [headers] property. *)
Definition server_response : heap := [ {[ "statusCode" := VNum 404 ]} ].

(** * Lemmas *)

(** ** The monad *)

Lemma bind_Ok {A B} (m : M A) (k : A → M B) h a h' :
  m h = Ok a h' → bind m k h = k a h'.
Proof. unfold bind. by intros ->. Qed.

Lemma bind_Throw {A B} (m : M A) (k : A → M B) h e h' :
  m h = Throw e h' → bind m k h = Throw e h'.
Proof. unfold bind. by intros ->. Qed.

Lemma bind_ret {A B} (a : A) (k : A → M B) h : bind (ret a) k h = k a h.
Proof. done. Qed.

Lemma bind_alloc {B} (o : object) (k : value → M B) (h : heap) :
  bind (alloc o) k h = k (VRef (length h)) (h ++ [o]).
Proof. done. Qed.

(** ** Property reads *)

Lemma own_props_ref h l o : h !! l = Some o → own_props h (VRef l) = o.
Proof. simpl. by intros ->. Qed.

Lemma get_prop_ref h l o k :
  h !! l = Some o → get_prop (VRef l) k h = Ok (prop o k) h.
Proof. unfold get_prop, prop. simpl. by intros ->. Qed.

Lemma get_prop_truthy v k h :
  truthy v = true → get_prop v k h = Ok (prop (own_props h v) k) h.
Proof. by destruct v. Qed.

Lemma get_prop_nullish v k h :
  nullish v = true → get_prop v k h = Throw TypeError h.
Proof. unfold get_prop. by intros ->. Qed.

Lemma get_prop_defined v k h :
  nullish v = false → get_prop v k h = Ok (prop (own_props h v) k) h.
Proof. unfold get_prop. by intros ->. Qed.

Lemma truthy_defined v : truthy v = true → nullish v = false.
Proof. by destruct v. Qed.

Lemma lookup_alloc (h : heap) (o : object) : (h ++ [o]) !! length h = Some o.
Proof. by rewrite lookup_app_r, Nat.sub_diag. Qed.

Lemma lookup_result (h hs : heap) (o : object) :
  (h ++ hs ++ [o]) !! length (h ++ hs) = Some o.
Proof. by rewrite app_assoc, lookup_alloc. Qed.

Lemma lookup_grow (h hs : heap) l (o : object) :
  h !! l = Some o → (h ++ hs) !! l = Some o.
Proof. apply lookup_app_l_Some. Qed.

(** ** pick and omit, by lookup *)

Lemma foldl_pick_lookup (o acc : object) (paths : list value) (k : string) :
  foldl (λ result p,
           match o !! to_string p with
           | Some v => <[to_string p := v]> result
           | None => result
           end) acc paths !! k
  = if decide (k ∈ keys paths)
    then from_option Some (acc !! k) (o !! k)
    else acc !! k.
Proof.
  unfold keys. revert acc.
  induction paths as [| p paths IH]; intros acc; [done |].
  rewrite fmap_cons. cbn [foldl]. rewrite IH.
  destruct (decide (k = to_string p)) as [-> | Hne].
  - rewrite (decide_True _ _ (list_elem_of_here _ _)).
    destruct (o !! to_string p) as [v |] eqn:Hv; simpl.
    + rewrite lookup_insert_eq. by case_decide.
    + by case_decide.
  - assert ((match o !! to_string p with
               | Some v => <[to_string p := v]> acc
               | None => acc
               end) !! k = acc !! k) as ->.
    { destruct (o !! to_string p); [by rewrite lookup_insert_ne | done]. }
    destruct (decide (k ∈ to_string <$> paths)) as [Hin | Hin].
    + by rewrite decide_True by (by right).
    + rewrite decide_False; [done |].
      rewrite elem_of_cons. by intros [? | ?].
Qed.

Lemma pick_props_lookup o paths k :
  pick_props o paths !! k = if decide (k ∈ keys paths) then o !! k else None.
Proof.
  unfold pick_props. rewrite foldl_pick_lookup, lookup_empty.
  case_decide; [by destruct (o !! k) | done].
Qed.

Lemma omit_props_lookup o paths k :
  omit_props o paths !! k = if decide (k ∈ keys paths) then None else o !! k.
Proof.
  unfold omit_props, keys.
  induction paths as [| p paths IH]; [done |].
  rewrite fmap_cons. cbn [foldr].
  destruct (decide (k = to_string p)) as [-> | Hne].
  - by rewrite lookup_delete_eq, (decide_True _ _ (list_elem_of_here _ _)).
  - rewrite lookup_delete_ne by done. rewrite IH.
    destruct (decide (k ∈ to_string <$> paths)) as [Hin | Hin].
    + by rewrite decide_True by (by right).
    + rewrite decide_False; [done |].
      rewrite elem_of_cons. by intros [? | ?].
Qed.

Lemma pick_props_empty paths : pick_props ∅ paths = ∅.
Proof.
  apply map_eq; intros k. rewrite pick_props_lookup, lookup_empty.
  by case_decide.
Qed.

Lemma omit_props_empty paths : omit_props ∅ paths = ∅.
Proof.
  apply map_eq; intros k. rewrite omit_props_lookup, lookup_empty.
  by case_decide.
Qed.

Lemma keys_coerce paths : keys (coerce paths) = keys paths.
Proof. unfold keys, coerce. rewrite <- list_fmap_compose. by apply list_fmap_ext. Qed.

Lemma keys_names (l : list string) : keys (names l) = l.
Proof.
  unfold keys, names. rewrite <- list_fmap_compose.
  rewrite <- (list_fmap_id l) at 2. by apply list_fmap_ext.
Qed.

(** ** filterHeaders, in closed form *)

Lemma filterHeaders_run v opts h :
  filterHeaders v opts h
  = Ok (VRef (length (h ++ picked (own_props h v) opts)))
       (h ++ picked (own_props h v) opts
          ++ [filtered (own_props h v) (enum_props h v) opts]).
Proof.
  unfold filterHeaders, picked, filtered.
  destruct (default no_options opts) as [[wl |] bl]; simpl.
  - unfold bind, pick, omit, alloc, ret; simpl.
    by rewrite lookup_alloc, <- app_assoc.
  - unfold bind, omit, alloc, ret; simpl.
    by rewrite app_nil_r.
Qed.

Lemma filterHeaders_ref h l H opts :
  h !! l = Some H →
  filterHeaders (VRef l) opts h
  = Ok (VRef (length (h ++ picked H opts)))
       (h ++ picked H opts ++ [filtered H H opts]).
Proof.
  intros Hl. rewrite filterHeaders_run.
  by rewrite (own_props_ref _ _ _ Hl); simpl; rewrite Hl.
Qed.

Lemma deref_filterHeaders h l H opts :
  h !! l = Some H →
  deref (filterHeaders (VRef l) opts h) = Some (filtered H H opts).
Proof.
  intros Hl. rewrite (filterHeaders_ref _ _ _ _ Hl). simpl.
  apply lookup_result.
Qed.

Lemma filtered_lookup (H : object) opts k :
  filtered H H opts !! k
  = if decide (k ∈ keys (default [] (blacklistHeaders (default no_options opts))))
    then None
    else match whitelistHeaders (default no_options opts) with
         | Some wl => if decide (k ∈ keys wl) then H !! k else None
         | None => H !! k
         end.
Proof.
  unfold filtered. rewrite omit_props_lookup.
  destruct (whitelistHeaders _); [by rewrite pick_props_lookup | done].
Qed.

Lemma filtered_idempotent (H : object) opts :
  filtered (filtered H H opts) (filtered H H opts) opts = filtered H H opts.
Proof.
  apply map_eq; intros k. rewrite !filtered_lookup.
  case_decide; [done |].
  destruct (whitelistHeaders _); [| done].
  by case_decide.
Qed.

Lemma filtered_coerced (H : object) opts :
  filtered H H (Some (coerced opts)) = filtered H H (Some opts).
Proof.
  apply map_eq; intros k. rewrite !filtered_lookup.
  destruct opts as [[wl |] [bl |]]; simpl; by rewrite ?keys_coerce.
Qed.

Lemma filtered_policy_Some (H : object) allow deny k v :
  filtered H H (policy allow deny) !! k = Some v
  ↔ H !! k = Some v ∧ (allow = None ∨ listed allow k) ∧ ¬ listed deny k.
Proof.
  rewrite filtered_lookup.
  destruct allow as [a |], deny as [d |]; simpl; rewrite ?keys_names;
    repeat case_decide; intuition congruence.
Qed.

(** * The header filter *)

(** C1.  For a header map [H] and a policy with optional allow-list
    and optional deny-list, [filterHeaders] returns an object whose
    keys are exactly the keys of [H] that are in the allow-list (all
    keys of [H] when there is no allow-list) and not in the deny-list;
    each kept key keeps its value; a key in both lists is excluded. *)
Theorem filterHeaders_allow_deny (h : heap) (l : loc) (H : object)
    (allow deny : option (list string)) :
  h !! l = Some H →
  ∃ R : object,
    deref (filterHeaders (VRef l) (policy allow deny) h) = Some R
    ∧ (∀ k, k ∈ dom R
            ↔ k ∈ dom H ∧ (allow = None ∨ listed allow k) ∧ ¬ listed deny k)
    ∧ (∀ k, k ∈ dom R → R !! k = H !! k)
    ∧ (∀ k, listed allow k → listed deny k → k ∉ dom R).
Proof.
  intros Hl. exists (filtered H H (policy allow deny)).
  split; [by apply deref_filterHeaders |].
  split; [| split].
  - intros k. rewrite !elem_of_dom. unfold is_Some.
    setoid_rewrite filtered_policy_Some.
    split; [intros (v & ? & ? & ?) | intros ((v & ?) & ? & ?)]; eauto.
  - intros k [v Hv]%elem_of_dom. rewrite Hv.
    apply filtered_policy_Some in Hv. by destruct Hv as [-> _].
  - intros k _ Hdeny [v Hv]%elem_of_dom.
    apply filtered_policy_Some in Hv. by destruct Hv as (_ & _ & Hno).
Qed.

Lemma filterHeaders_allow_deny_witness :
  ∃ R : object,
    deref (filterHeaders (VRef 0)
             (policy (Some ["host"; "authorization"]) (Some ["authorization"]))
             [sample_headers]) = Some R
    ∧ (∀ k, k ∈ dom R
            ↔ k ∈ dom sample_headers
              ∧ (Some ["host"; "authorization"] = None
                 ∨ listed (Some ["host"; "authorization"]) k)
              ∧ ¬ listed (Some ["authorization"]) k)
    ∧ (∀ k, k ∈ dom R → R !! k = sample_headers !! k)
    ∧ (∀ k, listed (Some ["host"; "authorization"]) k
            → listed (Some ["authorization"]) k → k ∉ dom R).
Proof.
  apply (filterHeaders_allow_deny [sample_headers] 0 sample_headers).
  reflexivity.
Defined.

(** C2.  Filtering is idempotent: filtering the object that
    [filterHeaders] returned, with the same options, returns an object
    with the same properties. *)
Theorem filterHeaders_idempotent (h : heap) (l : loc) (H : object)
    (opts : option options) :
  h !! l = Some H →
  ∃ l1 h1 l2 h2 (R : object),
    filterHeaders (VRef l) opts h = Ok (VRef l1) h1
    ∧ filterHeaders (VRef l1) opts h1 = Ok (VRef l2) h2
    ∧ h1 !! l1 = Some R
    ∧ h2 !! l2 = Some R.
Proof.
  intros Hl.
  pose proof (lookup_result h (picked H opts) (filtered H H opts)) as Hl1.
  eexists _, _, _, _, (filtered H H opts).
  split; [by apply filterHeaders_ref |].
  split; [by apply filterHeaders_ref |].
  split; [done |].
  by rewrite lookup_result, filtered_idempotent.
Qed.

Lemma filterHeaders_idempotent_witness :
  ∃ l1 h1 l2 h2 (R : object),
    filterHeaders (VRef 0) (policy (Some ["host"; "x-req-id"]) (Some ["host"]))
      [sample_headers] = Ok (VRef l1) h1
    ∧ filterHeaders (VRef l1) (policy (Some ["host"; "x-req-id"]) (Some ["host"]))
        h1 = Ok (VRef l2) h2
    ∧ h1 !! l1 = Some R
    ∧ h2 !! l2 = Some R.
Proof.
  apply (filterHeaders_idempotent [sample_headers] 0 sample_headers).
  reflexivity.
Defined.

(** C3.  [filterHeaders] does not mutate its input: it returns, the
    header object holds after the call what it held before, as does
    every other object of the heap, and the object returned is a new
    one. *)
Theorem filterHeaders_no_mutation (h : heap) (l : loc) (H : object)
    (opts : option options) :
  h !! l = Some H →
  ∃ l' h',
    filterHeaders (VRef l) opts h = Ok (VRef l') h'
    ∧ h' !! l = Some H
    ∧ (∀ l0 (o : object), h !! l0 = Some o → h' !! l0 = Some o)
    ∧ h !! l' = None.
Proof.
  intros Hl. eexists _, _.
  split; [by apply filterHeaders_ref |].
  split; [by apply lookup_grow |].
  split; [intros l0 o; apply lookup_grow |].
  apply lookup_ge_None. rewrite length_app. lia.
Qed.

Lemma filterHeaders_no_mutation_witness :
  ∃ l' h',
    filterHeaders (VRef 0) (policy None (Some ["authorization"]))
      [sample_headers] = Ok (VRef l') h'
    ∧ h' !! 0 = Some sample_headers
    ∧ (∀ l0 (o : object),
         [sample_headers] !! l0 = Some o → h' !! l0 = Some o)
    ∧ [sample_headers] !! l' = None.
Proof.
  apply (filterHeaders_no_mutation [sample_headers] 0 sample_headers).
  reflexivity.
Defined.

(** C9, as the code has it.  A list element that is not a string is
    coerced to the string that names a property: [filterHeaders]
    returns, and returns what it returns for the lists of those
    strings.  Nothing checks the element types. *)
Theorem filterHeaders_coerces_paths (h : heap) (l : loc) (H : object)
    (opts : options) :
  h !! l = Some H →
  is_Some (deref (filterHeaders (VRef l) (Some opts) h))
  ∧ deref (filterHeaders (VRef l) (Some opts) h)
    = deref (filterHeaders (VRef l) (Some (coerced opts)) h).
Proof.
  intros Hl. rewrite !(deref_filterHeaders _ _ _ _ Hl).
  split; [by eexists |]. by rewrite filtered_coerced.
Qed.

Lemma filterHeaders_coerces_paths_witness :
  is_Some (deref (filterHeaders (VRef 0)
                    (Some (Options (Some [VNum 1; VBool true]) (Some [VNull])))
                    [numbered_headers]))
  ∧ deref (filterHeaders (VRef 0)
             (Some (Options (Some [VNum 1; VBool true]) (Some [VNull])))
             [numbered_headers])
    = deref (filterHeaders (VRef 0)
               (Some (coerced (Options (Some [VNum 1; VBool true]) (Some [VNull]))))
               [numbered_headers]).
Proof.
  apply (filterHeaders_coerces_paths [numbered_headers] 0 numbered_headers).
  reflexivity.
Defined.

(** C9, as stated, fails: with the number [1] in the whitelist the
    call returns normally, and the header named ["1"] is kept. *)
Lemma filterHeaders_number_in_whitelist :
  filterHeaders (VRef 0) (Some (Options (Some [VNum 1]) None))
    [numbered_headers]
  = Ok (VRef 2)
       [numbered_headers; {[ "1" := VStr "x" ]}; {[ "1" := VStr "x" ]}].
Proof. vm_compute. reflexivity. Qed.

(** * Request normalization *)

(** ** Running the monad on the shapes the source uses *)

Lemma bind_get_prop_ref {B} l k (K : value → M B) (h : heap) (o : object) :
  h !! l = Some o → bind (get_prop (VRef l) k) K h = K (prop o k) h.
Proof. intros Hl. apply bind_Ok. by apply get_prop_ref. Qed.

Lemma bind_get_prop_truthy {B} v k (K : value → M B) (h : heap) :
  truthy v = true →
  bind (get_prop v k) K h = K (prop (own_props h v) k) h.
Proof. intros Hv. apply bind_Ok. by apply get_prop_truthy. Qed.

Lemma bind_filterHeaders {B} v opts (K : value → M B) (h : heap) :
  bind (filterHeaders v opts) K h
  = K (VRef (length (h ++ picked (own_props h v) opts)))
      (h ++ picked (own_props h v) opts
         ++ [filtered (own_props h v) (enum_props h v) opts]).
Proof. apply bind_Ok. apply filterHeaders_run. Qed.

(** [a || v.k] *)
Lemma bind_or_else_get_prop {B} a l k (K : value → M B) (h : heap) (o : object) :
  h !! l = Some o →
  bind (or_else a (get_prop (VRef l) k)) K h
  = K (if truthy a then a else prop o k) h.
Proof.
  intros Hl. unfold or_else. destruct (truthy a); [done |].
  by apply bind_get_prop_ref.
Qed.

(** [a || {}] *)
Lemma bind_or_else_alloc {B} a (K : value → M B) (h : heap) :
  bind (or_else a (alloc ∅)) K h
  = K (if truthy a then a else VRef (length h))
      (h ++ if truthy a then [] else [∅]).
Proof.
  unfold or_else. destruct (truthy a); [| done].
  by rewrite app_nil_r.
Qed.

(** [a || v.k || {}] *)
Lemma bind_or_else_get_prop_alloc {B} a l k (K : value → M B) (h : heap)
    (o : object) :
  h !! l = Some o →
  bind (or_else a (let* b := get_prop (VRef l) k in or_else b (alloc ∅))) K h
  = K (if truthy a then a
       else if truthy (prop o k) then prop o k else VRef (length h))
      (h ++ if truthy a || truthy (prop o k) then [] else [∅]).
Proof.
  intros Hl. unfold or_else at 1. destruct (truthy a); simpl.
  - by rewrite app_nil_r.
  - unfold bind at 1. rewrite (bind_get_prop_ref _ _ _ _ _ Hl).
    apply (bind_or_else_alloc (prop o k) K h).
Qed.

Lemma truthy_or_fresh a (h : heap) :
  truthy (if truthy a then a else VRef (length h)) = true.
Proof. by destruct (truthy a) eqn:Ha. Qed.

(** ** The record [formatRequest] returns *)

Lemma filtered_default own enum opts :
  filtered own enum (Some (default no_options opts)) = filtered own enum opts.
Proof. by destruct opts. Qed.

Lemma formatRequest_ref (h : heap) (l : loc) (req : object) opts :
  h !! l = Some req →
  ∃ h' l' (rec : object) lh,
    formatRequest (VRef l) opts h = Ok (VRef l') h'
    ∧ h' !! l' = Some rec
    ∧ rec !! "url"
      = Some (if truthy (prop req "url") then prop req "url"
              else prop req "path")
    ∧ rec !! "headers" = Some (VRef lh)
    ∧ h' !! lh
      = Some (let raw :=
                if truthy (prop req "headers") then prop req "headers"
                else if truthy (prop req "_headers") then prop req "_headers"
                else VRef (length h) in
              let h1 :=
                h ++ if truthy (prop req "headers") || truthy (prop req "_headers")
                     then [] else [∅] in
              filtered (own_props h1 raw) (enum_props h1 raw) opts).
Proof.
  intros Hl. unfold formatRequest.
  rewrite <- (filtered_default _ _ opts).
  destruct (default no_options opts) as [wl bl].
  rewrite !(bind_get_prop_ref _ _ _ _ _ Hl).
  rewrite (bind_or_else_get_prop _ _ _ _ _ _ Hl).
  rewrite (bind_get_prop_ref _ _ _ _ _ Hl).
  rewrite (bind_or_else_get_prop_alloc _ _ _ _ _ _ Hl).
  rewrite bind_filterHeaders.
  set (h1 := h ++ if truthy (prop req "headers") || truthy (prop req "_headers")
                  then [] else [∅]).
  set (raw := if truthy (prop req "headers") then prop req "headers"
              else if truthy (prop req "_headers") then prop req "_headers"
              else VRef (length h)).
  set (popts := Some (Options wl bl)).
  set (tmp := picked (own_props h1 raw) popts).
  set (res := filtered (own_props h1 raw) (enum_props h1 raw) popts).
  assert ((h1 ++ tmp ++ [res]) !! l = Some req) as Hl2
    by (by do 2 apply lookup_grow).
  rewrite (bind_get_prop_ref _ _ _ _ _ Hl2).
  rewrite bind_or_else_alloc.
  rewrite !bind_get_prop_truthy by apply truthy_or_fresh.
  unfold alloc.
  eexists _, _, _, _.
  split; [reflexivity |].
  split; [apply lookup_alloc |].
  split; [by rewrite !lookup_insert_ne by done; rewrite lookup_insert_eq |].
  split; [by rewrite !lookup_insert_ne by done; rewrite lookup_insert_eq |].
  do 2 apply lookup_grow. apply lookup_result.
Qed.

Lemma filtered_empty opts : filtered ∅ ∅ opts = ∅.
Proof.
  unfold filtered. destruct (whitelistHeaders _);
    by rewrite ?pick_props_empty, omit_props_empty.
Qed.

(** C4.  The [url] of the record is [request.url] when that is truthy,
    and [request.path] when [request.url] is absent or falsy. *)
Theorem formatRequest_url (h : heap) (l : loc) (req : object)
    (opts : option options) :
  h !! l = Some req →
  field (formatRequest (VRef l) opts h) "url"
  = Some (if truthy (prop req "url") then prop req "url"
          else prop req "path").
Proof.
  intros Hl.
  destruct (formatRequest_ref h l req opts Hl)
    as (h' & l' & rec & lh & -> & Hrec & Hurl & _).
  unfold field, deref. by rewrite Hrec.
Qed.

(** C4, the scenario: [path = "/x"] and no [url] give [url == "/x"]. *)
Lemma formatRequest_url_witness :
  field (formatRequest (VRef 0) None [ {[ "path" := VStr "/x" ]} ]) "url"
  = Some (VStr "/x").
Proof.
  exact (formatRequest_url [ {[ "path" := VStr "/x" ]} ] 0
           {[ "path" := VStr "/x" ]} None eq_refl).
Defined.

(** C5.  The headers of the record are the filtered [request.headers]
    when that is an object; when [request.headers] is absent (or
    falsy) they are the filtered [request._headers]; when that is
    absent (or falsy) as well they are empty.  Without options the
    filter keeps every header. *)
Theorem formatRequest_headers (h : heap) (l : loc) (req : object)
    (opts : option options) :
  h !! l = Some req →
  ∃ R : object,
    field_object (formatRequest (VRef l) opts h) "headers" = Some R
    ∧ (∀ lh (Hd : object),
         prop req "headers" = VRef lh → h !! lh = Some Hd →
         Some R = deref (filterHeaders (VRef lh) opts h)
         ∧ (opts = None → R = Hd))
    ∧ (truthy (prop req "headers") = false →
       ∀ lh (Hd : object),
         prop req "_headers" = VRef lh → h !! lh = Some Hd →
         Some R = deref (filterHeaders (VRef lh) opts h)
         ∧ (opts = None → R = Hd))
    ∧ (truthy (prop req "headers") = false →
       truthy (prop req "_headers") = false →
       R = ∅).
Proof.
  intros Hl.
  destruct (formatRequest_ref h l req opts Hl)
    as (h' & l' & rec & lh' & -> & Hrec & _ & Hh & Hres).
  eexists. split.
  { unfold field_object. rewrite Hrec. simpl. rewrite Hh. exact Hres. }
  cbv zeta. split; [| split].
  - intros lh Hd -> Hlh. simpl. rewrite app_nil_r, Hlh. simpl.
    rewrite (deref_filterHeaders _ _ _ _ Hlh).
    split; [done |]. by intros ->.
  - intros -> lh Hd -> Hlh. simpl. rewrite app_nil_r, Hlh. simpl.
    rewrite (deref_filterHeaders _ _ _ _ Hlh).
    split; [done |]. by intros ->.
  - intros -> ->. simpl. rewrite lookup_alloc. simpl.
    apply filtered_empty.
Qed.

(** C5, the scenario: no [headers], [_headers = {host: "a.com"}] and no
    options give [headers == {host: "a.com"}]; then a request with
    both properties, and one with neither. *)
Lemma formatRequest_headers_witness :
  field_object (formatRequest (VRef 0) None outgoing_request) "headers"
  = Some {[ "host" := VStr "a.com" ]}
  ∧ field_object (formatRequest (VRef 0) None incoming_request) "headers"
    = Some {[ "host" := VStr "a.com" ]}
  ∧ field_object (formatRequest (VRef 0) None bare_request) "headers"
    = Some ∅.
Proof.
  split; [| split].
  - destruct (formatRequest_headers outgoing_request 0
                {[ "_headers" := VRef 1 ]} None eq_refl)
      as (R & -> & _ & Hfallback & _).
    destruct (Hfallback eq_refl 1 {[ "host" := VStr "a.com" ]} eq_refl eq_refl)
      as [_ HR].
    by rewrite (HR eq_refl).
  - destruct (formatRequest_headers incoming_request 0
                {[ "headers" := VRef 1; "_headers" := VRef 2 ]} None eq_refl)
      as (R & -> & Hprefer & _).
    destruct (Hprefer 1 {[ "host" := VStr "a.com" ]} eq_refl eq_refl)
      as [_ HR].
    by rewrite (HR eq_refl).
  - destruct (formatRequest_headers bare_request 0 ∅ None eq_refl)
      as (R & -> & _ & _ & Hnone).
    by rewrite (Hnone eq_refl eq_refl).
Defined.

(** * The summaries *)

(** C6.  [stringifyRequest] renders the method, a space, the value
    under the key [host] of the headers object, and the url; it reads
    the headers object as it is, without filtering, and only the key
    spelled [host] counts. *)
Theorem stringifyRequest_format (h : heap) (l lh : loc) (req Hd : object) :
  h !! l = Some req →
  prop req "headers" = VRef lh →
  h !! lh = Some Hd →
  stringifyRequest (VRef l) h
  = Ok (to_string (prop req "method") +:+ " " +:+ to_string (prop Hd "host")
          +:+ to_string (prop req "url")) h
  ∧ (Hd !! "host" = None →
     stringifyRequest (VRef l) h
     = Ok (to_string (prop req "method") +:+ " undefined"
             +:+ to_string (prop req "url")) h).
Proof.
  intros Hl Hh Hlh.
  assert (stringifyRequest (VRef l) h
          = Ok (to_string (prop req "method") +:+ " "
                  +:+ to_string (prop Hd "host")
                  +:+ to_string (prop req "url")) h) as Hrun.
  { unfold stringifyRequest.
    rewrite !(bind_get_prop_ref _ _ _ _ _ Hl), Hh.
    rewrite bind_ret. by rewrite (bind_get_prop_ref _ _ _ _ _ Hlh). }
  split; [done |].
  intros Hhost. rewrite Hrun. unfold prop at 2. by rewrite Hhost.
Qed.

(** C6, the scenario; and a header spelled [Host] is not found. *)
Lemma stringifyRequest_format_witness :
  stringifyRequest (VRef 0) sample_request
  = Ok "GET example.com/path?foo=bar" sample_request
  ∧ stringifyRequest (VRef 0) capitalized_request
    = Ok "GET undefined/path" capitalized_request.
Proof.
  split.
  - exact (proj1 (stringifyRequest_format sample_request 0 1
                    {[ "method" := VStr "GET";
                       "url" := VStr "/path?foo=bar";
                       "headers" := VRef 1 ]}
                    {[ "host" := VStr "example.com" ]}
                    eq_refl eq_refl eq_refl)).
  - exact (proj2 (stringifyRequest_format capitalized_request 0 1
                    {[ "method" := VStr "GET";
                       "url" := VStr "/path";
                       "headers" := VRef 1 ]}
                    {[ "Host" := VStr "example.com" ]}
                    eq_refl eq_refl eq_refl)
                 eq_refl).
Defined.

(** C10.  Without a [headers] property the default [{}] is used and
    the missing host renders as [undefined]. *)
Theorem stringifyRequest_no_headers (h : heap) (l : loc) (req : object) :
  h !! l = Some req →
  req !! "headers" = None →
  stringifyRequest (VRef l) h
  = Ok (to_string (prop req "method") +:+ " undefined"
          +:+ to_string (prop req "url")) (h ++ [∅]).
Proof.
  intros Hl Hh. unfold stringifyRequest.
  rewrite !(bind_get_prop_ref _ _ _ _ _ Hl).
  unfold prop at 1. rewrite Hh. simpl.
  rewrite bind_alloc.
  by rewrite (bind_get_prop_ref _ _ _ _ _ (lookup_alloc h ∅)).
Qed.

(** C10, the scenario. *)
Lemma stringifyRequest_no_headers_witness :
  stringifyRequest (VRef 0) [ {[ "method" := VStr "GET"; "url" := VStr "/x" ]} ]
  = Ok "GET undefined/x"
       [ {[ "method" := VStr "GET"; "url" := VStr "/x" ]}; ∅ ].
Proof.
  exact (stringifyRequest_no_headers
           [ {[ "method" := VStr "GET"; "url" := VStr "/x" ]} ] 0
           {[ "method" := VStr "GET"; "url" := VStr "/x" ]}
           eq_refl eq_refl).
Defined.

(** C7.  For a numeric status code, [stringifyResponse] returns
    without throwing: with no entry in the table the reason phrase
    renders as [undefined]; with an entry it is the phrase of the
    table, after the code and between parentheses. *)
Theorem stringifyResponse_format (STATUS_CODES : object) (h : heap) (l : loc)
    (resp : object) (n : Z) :
  h !! l = Some resp →
  resp !! "statusCode" = Some (VNum n) →
  (STATUS_CODES !! pretty n = None →
   stringifyResponse STATUS_CODES (VRef l) h
   = Ok (pretty n +:+ " (undefined)") h)
  ∧ (∀ statusText : string,
       STATUS_CODES !! pretty n = Some (VStr statusText) →
       stringifyResponse STATUS_CODES (VRef l) h
       = Ok (pretty n +:+ " (" +:+ statusText +:+ ")") h).
Proof.
  intros Hl Hcode. unfold stringifyResponse.
  rewrite (bind_get_prop_ref _ _ _ _ _ Hl).
  unfold prop. rewrite Hcode. simpl.
  split; [intros -> | intros s ->]; done.
Qed.

(** C7, the scenarios: 201 and 999. *)
Lemma stringifyResponse_format_witness :
  stringifyResponse STATUS_CODES_excerpt (VRef 0) [ {[ "statusCode" := VNum 201 ]} ]
  = Ok "201 (Created)" [ {[ "statusCode" := VNum 201 ]} ]
  ∧ stringifyResponse STATUS_CODES_excerpt (VRef 0) [ {[ "statusCode" := VNum 999 ]} ]
    = Ok "999 (undefined)" [ {[ "statusCode" := VNum 999 ]} ].
Proof.
  split.
  - exact (proj2 (stringifyResponse_format STATUS_CODES_excerpt
                    [ {[ "statusCode" := VNum 201 ]} ] 0
                    {[ "statusCode" := VNum 201 ]} 201 eq_refl eq_refl)
                 "Created" eq_refl).
  - exact (proj1 (stringifyResponse_format STATUS_CODES_excerpt
                    [ {[ "statusCode" := VNum 999 ]} ] 0
                    {[ "statusCode" := VNum 999 ]} 999 eq_refl eq_refl)
                 eq_refl).
Defined.

(** * Arguments that are not objects *)

Lemma returns_bind {A B} (m : M A) (k : A → M B) (h : heap)
    (P : A → heap → Prop) (Q : B → heap → Prop) :
  returns m h P →
  (∀ a h', P a h' → returns (k a) h' Q) →
  returns (bind m k) h Q.
Proof.
  intros (a & h' & Hm & HP) Hk. unfold returns.
  rewrite (bind_Ok _ _ _ _ _ Hm). by apply Hk.
Qed.

Lemma returns_get_prop v k h :
  nullish v = false → returns (get_prop v k) h (λ _ _, True).
Proof. intros Hv. eexists _, _. by rewrite (get_prop_defined _ _ _ Hv). Qed.

Lemma returns_or_else a (m : M value) (h : heap) (Q : value → heap → Prop) :
  (truthy a = true → Q a h) →
  (truthy a = false → returns m h Q) →
  returns (or_else a m) h Q.
Proof.
  intros Ha Hm. unfold or_else. destruct (truthy a); [| by apply Hm].
  eexists _, _. split; [done |]. by apply Ha.
Qed.

Lemma returns_alloc_truthy (o : object) (h : heap) :
  returns (alloc o) h (λ v _, truthy v = true).
Proof. by eexists _, _. Qed.

Lemma returns_filterHeaders v opts (h : heap) :
  returns (filterHeaders v opts) h (λ _ _, True).
Proof. eexists _, _. by rewrite filterHeaders_run. Qed.

Lemma formatRequest_returns v opts (h : heap) :
  nullish v = false →
  returns (formatRequest v opts) h
    (λ r h', ∃ l (rec : object), r = VRef l ∧ h' !! l = Some rec).
Proof.
  intros Hv. unfold formatRequest.
  destruct (default no_options opts) as [wl bl].
  do 4 (eapply returns_bind; [by apply returns_get_prop | intros ? ? _]).
  eapply (returns_bind _ _ _ (λ _ _, True)).
  { apply returns_or_else; [done | intros _; by apply returns_get_prop]. }
  intros url ? _.
  eapply returns_bind; [by apply returns_get_prop | intros ? ? _].
  eapply (returns_bind _ _ _ (λ _ _, True)).
  { apply returns_or_else; [done | intros _].
    eapply returns_bind; [by apply returns_get_prop | intros ? ? _].
    apply returns_or_else; [done | intros _]. by eexists _, _. }
  intros receivedHeaders ? _.
  eapply returns_bind; [apply returns_filterHeaders | intros headers ? _].
  eapply returns_bind; [by apply returns_get_prop | intros ? ? _].
  eapply (returns_bind _ _ _ (λ s _, truthy s = true)).
  { apply returns_or_else; [done | intros _; apply returns_alloc_truthy]. }
  intros socket ? Hsocket%truthy_defined.
  do 4 (eapply returns_bind; [by apply returns_get_prop | intros ? ? _]).
  eexists _, _. split; [reflexivity |].
  eexists _, _. split; [reflexivity | apply lookup_alloc].
Qed.

(** C8, as the code has it.  Normalization throws exactly on [null]
    and [undefined]: the first property read raises a [TypeError], for
    a request as for a response, before any collaborator is called.
    Nothing else checks the argument: for every other value
    [formatRequest] returns a record. *)
Theorem format_throws_on_nullish (httpHeaders : value → bool → M value)
    (v : value) (opts : option options) (h : heap) :
  (nullish v = true →
   formatRequest v opts h = Throw TypeError h
   ∧ formatResponse httpHeaders v opts h = Throw TypeError h)
  ∧ (nullish v = false →
     ∃ l (h' : heap) (rec : object),
       formatRequest v opts h = Ok (VRef l) h' ∧ h' !! l = Some rec).
Proof.
  split; intros Hv.
  - unfold formatRequest, formatResponse.
    destruct (default no_options opts) as [wl bl].
    by rewrite !(bind_Throw _ _ _ _ _ (get_prop_nullish _ _ _ Hv)).
  - destruct (formatRequest_returns v opts h Hv)
      as (r & h' & Hrun & l & rec & -> & Hl).
    by eexists _, _, _.
Qed.

Lemma format_throws_on_nullish_witness :
  (formatRequest VNull None [] = Throw TypeError []
   ∧ formatResponse no_parsed_headers VNull None [] = Throw TypeError [])
  ∧ ∃ l (h' : heap) (rec : object),
      formatRequest (VBool true) None [] = Ok (VRef l) h' ∧ h' !! l = Some rec.
Proof.
  split.
  - exact (proj1 (format_throws_on_nullish no_parsed_headers VNull None [])
                 eq_refl).
  - exact (proj2 (format_throws_on_nullish no_parsed_headers (VBool true) None [])
                 eq_refl).
Defined.

(** C8, as stated, fails: the number [42] is not an object, and
    [formatRequest] returns a record for it, every field [undefined]
    and the headers empty. *)
Lemma formatRequest_number_returns :
  formatRequest (VNum 42) None []
  = Ok (VRef 3)
       [ ∅; ∅; ∅;
         {[ "timestamp" := VUndefined;
            "httpVersion" := VUndefined;
            "method" := VUndefined;
            "url" := VUndefined;
            "headers" := VRef 1;
            "remoteAddress" := VUndefined;
            "remotePort" := VUndefined;
            "localAddress" := VUndefined;
            "localPort" := VUndefined ]} ].
Proof. vm_compute. reflexivity. Qed.

(** * More on the header filter *)

Lemma filtered_kept (H : object) opts k v :
  filtered H H opts !! k = Some v ↔ H !! k = Some v ∧ kept opts k.
Proof.
  rewrite filtered_lookup. unfold kept.
  destruct (whitelistHeaders _); repeat case_decide; intuition congruence.
Qed.

Lemma deref_filter_twice (h : heap) l (H : object) first second :
  h !! l = Some H →
  deref (filter_twice (VRef l) first second h)
  = Some (filtered (filtered H H first) (filtered H H first) second).
Proof.
  intros Hl. unfold filter_twice.
  rewrite (bind_Ok _ _ _ _ _ (filterHeaders_ref _ _ _ _ Hl)).
  apply deref_filterHeaders, lookup_result.
Qed.

Lemma filtered_twice_kept (H : object) first second k v :
  filtered (filtered H H first) (filtered H H first) second !! k = Some v
  ↔ H !! k = Some v ∧ kept first k ∧ kept second k.
Proof. rewrite !filtered_kept. tauto. Qed.

Lemma option_eq_Some {A} (x y : option A) :
  (∀ v, x = Some v ↔ y = Some v) → x = y.
Proof.
  intros Hxy. destruct x as [a |], y as [b |]; try done.
  - by apply Hxy.
  - by destruct (proj1 (Hxy a) eq_refl).
  - by destruct (proj2 (Hxy b) eq_refl).
Qed.

(** X1.  Empty headers stay empty, whatever the options. *)
Theorem filterHeaders_empty (h : heap) (l : loc) (opts : option options) :
  h !! l = Some ∅ →
  deref (filterHeaders (VRef l) opts h) = Some ∅.
Proof.
  intros Hl. rewrite (deref_filterHeaders _ _ _ _ Hl).
  by rewrite filtered_empty.
Qed.

Lemma filterHeaders_empty_witness :
  deref (filterHeaders (VRef 0)
           (Some (Options (Some [VStr "host"]) (Some [VStr "cookie"])))
           bare_request) = Some ∅.
Proof. exact (filterHeaders_empty bare_request 0 _ eq_refl). Defined.

(** X2.  An empty whitelist is a whitelist: the array is truthy, so
    nothing is picked and the result is empty; only an absent
    whitelist lets every header through to the blacklist stage. *)
Theorem filterHeaders_empty_whitelist (h : heap) (l : loc) (H : object)
    (bl : option (list value)) :
  h !! l = Some H →
  deref (filterHeaders (VRef l) (Some (Options (Some []) bl)) h) = Some ∅
  ∧ deref (filterHeaders (VRef l) (Some (Options None None)) h) = Some H
  ∧ deref (filterHeaders (VRef l) None h) = Some H.
Proof.
  intros Hl. rewrite !(deref_filterHeaders _ _ _ _ Hl).
  split; [| done]. f_equal. apply map_eq; intros k.
  rewrite filtered_lookup, lookup_empty. simpl. by case_decide.
Qed.

Lemma filterHeaders_empty_whitelist_witness :
  deref (filterHeaders (VRef 0) (Some (Options (Some []) None))
           [sample_headers]) = Some ∅
  ∧ deref (filterHeaders (VRef 0) (Some (Options None None))
             [sample_headers]) = Some sample_headers
  ∧ deref (filterHeaders (VRef 0) None [sample_headers]) = Some sample_headers.
Proof.
  exact (filterHeaders_empty_whitelist [sample_headers] 0 sample_headers None
           eq_refl).
Defined.

(** X3.  Only the set of names in each list matters: reordering a
    list or repeating a name in it does not change the result. *)
Theorem filterHeaders_lists_as_sets (h : heap) (l : loc) (H : object)
    (wl wl' bl bl' : option (list value)) :
  h !! l = Some H →
  same_keys wl wl' →
  same_keys bl bl' →
  deref (filterHeaders (VRef l) (Some (Options wl bl)) h)
  = deref (filterHeaders (VRef l) (Some (Options wl' bl')) h).
Proof.
  intros Hl Hwl Hbl. rewrite !(deref_filterHeaders _ _ _ _ Hl).
  f_equal. apply map_eq; intros k. apply option_eq_Some; intros v.
  rewrite !filtered_kept. unfold kept; simpl.
  destruct wl as [a |], wl' as [a' |], bl as [d |], bl' as [d' |];
    simpl in *; try done; rewrite ?Hwl, ?Hbl; tauto.
Qed.

Lemma filterHeaders_lists_as_sets_witness :
  deref (filterHeaders (VRef 0)
           (Some (Options (Some [VStr "host"; VStr "x-req-id"])
                          (Some [VStr "host"])))
           [sample_headers])
  = deref (filterHeaders (VRef 0)
             (Some (Options (Some [VStr "x-req-id"; VStr "host"; VStr "host"])
                            (Some [VStr "host"; VStr "host"])))
             [sample_headers]).
Proof.
  apply (filterHeaders_lists_as_sets [sample_headers] 0 sample_headers);
    [reflexivity | |]; intros k; simpl; rewrite !elem_of_cons; tauto.
Defined.

(** X4.  Two filterings commute: a header survives both exactly when
    each of the two options keeps it, so the order in which the two
    are applied does not matter. *)
Theorem filter_twice_commutes (h : heap) (l : loc) (H : object)
    (first second : option options) :
  h !! l = Some H →
  ∃ R : object,
    deref (filter_twice (VRef l) first second h) = Some R
    ∧ deref (filter_twice (VRef l) second first h) = Some R
    ∧ ∀ k v, R !! k = Some v ↔ H !! k = Some v ∧ kept first k ∧ kept second k.
Proof.
  intros Hl. rewrite !(deref_filter_twice _ _ _ _ _ Hl).
  eexists. split; [done |]. split.
  - f_equal. apply map_eq; intros k. apply option_eq_Some; intros v.
    rewrite !filtered_twice_kept. tauto.
  - intros k v. apply filtered_twice_kept.
Qed.

Lemma filter_twice_commutes_witness :
  ∃ R : object,
    deref (filter_twice (VRef 0)
             (Some (Options (Some [VStr "host"; VStr "authorization"]) None))
             (Some (Options None (Some [VStr "authorization"])))
             [sample_headers]) = Some R
    ∧ deref (filter_twice (VRef 0)
               (Some (Options None (Some [VStr "authorization"])))
               (Some (Options (Some [VStr "host"; VStr "authorization"]) None))
               [sample_headers]) = Some R
    ∧ ∀ k v, R !! k = Some v
             ↔ sample_headers !! k = Some v
               ∧ kept (Some (Options (Some [VStr "host"; VStr "authorization"])
                                     None)) k
               ∧ kept (Some (Options None (Some [VStr "authorization"]))) k.
Proof.
  exact (filter_twice_commutes [sample_headers] 0 sample_headers _ _ eq_refl).
Defined.

(** X5.  One call with both lists does what two calls do, the
    whitelist in one and the blacklist in the other, in either
    order. *)
Theorem filterHeaders_splits (h : heap) (l : loc) (H : object)
    (wl bl : option (list value)) :
  h !! l = Some H →
  deref (filter_twice (VRef l) (Some (Options wl None))
           (Some (Options None bl)) h)
  = deref (filterHeaders (VRef l) (Some (Options wl bl)) h)
  ∧ deref (filter_twice (VRef l) (Some (Options None bl))
             (Some (Options wl None)) h)
    = deref (filterHeaders (VRef l) (Some (Options wl bl)) h).
Proof.
  intros Hl.
  rewrite !(deref_filter_twice _ _ _ _ _ Hl), (deref_filterHeaders _ _ _ _ Hl).
  split; f_equal; apply map_eq; intros k; apply option_eq_Some; intros v;
    rewrite filtered_twice_kept, filtered_kept; unfold kept; simpl;
    rewrite ?elem_of_nil; destruct wl; tauto.
Qed.

Lemma filterHeaders_splits_witness :
  deref (filter_twice (VRef 0) (Some (Options (Some [VStr "host"]) None))
           (Some (Options None (Some [VStr "host"]))) [sample_headers])
  = deref (filterHeaders (VRef 0)
             (Some (Options (Some [VStr "host"]) (Some [VStr "host"])))
             [sample_headers])
  ∧ deref (filter_twice (VRef 0) (Some (Options None (Some [VStr "host"])))
             (Some (Options (Some [VStr "host"]) None)) [sample_headers])
    = deref (filterHeaders (VRef 0)
               (Some (Options (Some [VStr "host"]) (Some [VStr "host"])))
               [sample_headers]).
Proof.
  exact (filterHeaders_splits [sample_headers] 0 sample_headers _ _ eq_refl).
Defined.

(** * More on request normalization *)

Lemma filtered_lookup_any (own enum : object) opts k :
  filtered own enum opts !! k
  = if decide (k ∈ keys (default [] (blacklistHeaders (default no_options opts))))
    then None
    else match whitelistHeaders (default no_options opts) with
         | Some wl => if decide (k ∈ keys wl) then own !! k else None
         | None => enum !! k
         end.
Proof.
  unfold filtered. rewrite omit_props_lookup.
  destruct (whitelistHeaders _); [by rewrite pick_props_lookup | done].
Qed.

(** Filtering again what was filtered changes nothing, whatever the
    first filtering started from. *)
Lemma filtered_again (own enum : object) opts :
  filtered (filtered own enum opts) (filtered own enum opts) opts
  = filtered own enum opts.
Proof.
  apply map_eq; intros k. rewrite !filtered_lookup_any.
  case_decide; [done |].
  destruct (whitelistHeaders _); [| done].
  by case_decide.
Qed.

(** The whole run of [formatRequest] on a request object: the heap
    grows by the objects allocated on the way and by the record. *)
Lemma formatRequest_full (h : heap) (l : loc) (req : object) opts :
  h !! l = Some req →
  ∃ (hs : heap) (lh : loc) (R sock : object),
    formatRequest (VRef l) opts h
    = Ok (VRef (length (h ++ hs)))
         (h ++ hs ++
            [ {[ "timestamp" := prop req "timestamp";
                 "httpVersion" := prop req "httpVersion";
                 "method" := prop req "method";
                 "url" := if truthy (prop req "url") then prop req "url"
                          else prop req "path";
                 "headers" := VRef lh;
                 "remoteAddress" := prop sock "remoteAddress";
                 "remotePort" := prop sock "remotePort";
                 "localAddress" := prop sock "localAddress";
                 "localPort" := prop sock "localPort" ]} ])
    ∧ (length h ≤ lh)%nat
    ∧ (h ++ hs) !! lh = Some R
    ∧ filtered R R opts = R
    ∧ (∀ lr (Hd : object),
         (if truthy (prop req "headers") then prop req "headers"
          else prop req "_headers") = VRef lr →
         h !! lr = Some Hd → R = filtered Hd Hd opts)
    ∧ (truthy (prop req "headers") = false →
       truthy (prop req "_headers") = false → R = ∅)
    ∧ (∀ ls (o : object),
         prop req "socket" = VRef ls → h !! ls = Some o → sock = o)
    ∧ (truthy (prop req "socket") = false → sock = ∅).
Proof.
  intros Hl. unfold formatRequest.
  assert (∀ own enum, filtered own enum (Some (default no_options opts))
                      = filtered own enum opts) as Hopts
    by (intros; apply filtered_default).
  destruct (default no_options opts) as [wl bl].
  rewrite !(bind_get_prop_ref _ _ _ _ _ Hl).
  rewrite (bind_or_else_get_prop _ _ _ _ _ _ Hl).
  rewrite (bind_get_prop_ref _ _ _ _ _ Hl).
  rewrite (bind_or_else_get_prop_alloc _ _ _ _ _ _ Hl).
  rewrite bind_filterHeaders.
  set (e1 := if truthy (prop req "headers") || truthy (prop req "_headers")
             then [] else [∅]).
  set (raw := if truthy (prop req "headers") then prop req "headers"
              else if truthy (prop req "_headers") then prop req "_headers"
              else VRef (length h)).
  set (popts := Some (Options wl bl)).
  set (tmp := picked (own_props (h ++ e1) raw) popts).
  set (res := filtered (own_props (h ++ e1) raw) (enum_props (h ++ e1) raw) popts).
  assert (((h ++ e1) ++ tmp ++ [res]) !! l = Some req) as Hl2
    by (by do 2 apply lookup_grow).
  rewrite (bind_get_prop_ref _ _ _ _ _ Hl2).
  rewrite bind_or_else_alloc.
  rewrite !bind_get_prop_truthy by apply truthy_or_fresh.
  unfold alloc.
  set (e3 := if truthy (prop req "socket") then [] else [∅]).
  set (sockv := if truthy (prop req "socket") then prop req "socket"
                else VRef (length ((h ++ e1) ++ tmp ++ [res]))).
  set (h3 := ((h ++ e1) ++ tmp ++ [res]) ++ e3).
  assert (h3 = h ++ (e1 ++ tmp ++ [res] ++ e3)) as Hh3
    by (unfold h3; by rewrite <- !app_assoc).
  exists (e1 ++ tmp ++ [res] ++ e3), (length ((h ++ e1) ++ tmp)), res,
         (own_props h3 sockv).
  rewrite <- Hh3, (app_assoc h), <- Hh3.
  split; [done |].
  split; [rewrite !length_app; lia |].
  split; [unfold h3; apply lookup_grow, lookup_result |].
  split; [unfold res; rewrite !Hopts; apply filtered_again |].
  split; [| split; [| split]].
  - intros lr Hd Hraw Hlr. unfold res, raw, e1.
    destruct (truthy (prop req "headers")) eqn:Hth; simpl.
    + rewrite Hraw. simpl. rewrite app_nil_r, Hlr. simpl. apply Hopts.
    + rewrite Hraw. simpl. rewrite app_nil_r, Hlr. simpl. apply Hopts.
  - intros Hth Hth'. unfold res, raw, e1. rewrite Hth, Hth'. simpl.
    rewrite lookup_alloc. simpl. apply filtered_empty.
  - intros ls o Hs Hls. unfold sockv. rewrite Hs. simpl.
    rewrite Hh3. by rewrite (lookup_grow _ _ _ _ Hls).
  - intros Hs. unfold sockv, h3, e3. rewrite Hs. simpl.
    by rewrite lookup_alloc.
Qed.

(** X6.  The record of a request object has exactly nine fields,
    however sparse the request; [timestamp], [httpVersion] and
    [method] are copied as they are, [undefined] when missing. *)
Theorem formatRequest_record_shape (h : heap) (l : loc) (req : object)
    (opts : option options) :
  h !! l = Some req →
  ∃ rec : object,
    deref (formatRequest (VRef l) opts h) = Some rec
    ∧ dom rec = request_fields
    ∧ rec !! "timestamp" = Some (prop req "timestamp")
    ∧ rec !! "httpVersion" = Some (prop req "httpVersion")
    ∧ rec !! "method" = Some (prop req "method").
Proof.
  intros Hl.
  destruct (formatRequest_full h l req opts Hl)
    as (hs & lh & R & sock & -> & _).
  eexists. split; [apply lookup_result |].
  split; [| by repeat split].
  unfold request_fields. rewrite !dom_insert_L, dom_singleton_L. set_solver.
Qed.

Lemma formatRequest_record_shape_witness :
  ∃ rec : object,
    deref (formatRequest (VRef 0) None bare_request) = Some rec
    ∧ dom rec = request_fields
    ∧ rec !! "timestamp" = Some VUndefined
    ∧ rec !! "httpVersion" = Some VUndefined
    ∧ rec !! "method" = Some VUndefined.
Proof. exact (formatRequest_record_shape bare_request 0 ∅ None eq_refl). Defined.

(** X7.  The four connection fields are read from [request.socket]:
    they are the socket's when it is an object, each [undefined] when
    the socket lacks it, and all [undefined] when there is no socket. *)
Theorem formatRequest_socket (h : heap) (l : loc) (req : object)
    (opts : option options) :
  h !! l = Some req →
  (∀ ls (sock : object),
     prop req "socket" = VRef ls → h !! ls = Some sock →
     field (formatRequest (VRef l) opts h) "remoteAddress"
     = Some (prop sock "remoteAddress")
     ∧ field (formatRequest (VRef l) opts h) "remotePort"
       = Some (prop sock "remotePort")
     ∧ field (formatRequest (VRef l) opts h) "localAddress"
       = Some (prop sock "localAddress")
     ∧ field (formatRequest (VRef l) opts h) "localPort"
       = Some (prop sock "localPort"))
  ∧ (truthy (prop req "socket") = false →
     field (formatRequest (VRef l) opts h) "remoteAddress" = Some VUndefined
     ∧ field (formatRequest (VRef l) opts h) "remotePort" = Some VUndefined
     ∧ field (formatRequest (VRef l) opts h) "localAddress" = Some VUndefined
     ∧ field (formatRequest (VRef l) opts h) "localPort" = Some VUndefined).
Proof.
  intros Hl.
  destruct (formatRequest_full h l req opts Hl)
    as (hs & lh & R & sock' & Hrun & _ & _ & _ & _ & _ & Hsock & Hnone).
  unfold field, deref. rewrite Hrun, lookup_result. split.
  - intros ls sock Hs Hls. by rewrite (Hsock ls sock Hs Hls).
  - intros Hs. by rewrite (Hnone Hs).
Qed.

Lemma formatRequest_socket_witness :
  (field (formatRequest (VRef 0) None connected_request) "remoteAddress"
   = Some (VStr "10.0.0.7")
   ∧ field (formatRequest (VRef 0) None connected_request) "remotePort"
     = Some (VNum 51234)
   ∧ field (formatRequest (VRef 0) None connected_request) "localAddress"
     = Some (VStr "10.0.0.1")
   ∧ field (formatRequest (VRef 0) None connected_request) "localPort"
     = Some (VNum 443))
  ∧ (field (formatRequest (VRef 0) None outgoing_request) "remoteAddress"
     = Some VUndefined
     ∧ field (formatRequest (VRef 0) None outgoing_request) "remotePort"
       = Some VUndefined
     ∧ field (formatRequest (VRef 0) None outgoing_request) "localAddress"
       = Some VUndefined
     ∧ field (formatRequest (VRef 0) None outgoing_request) "localPort"
       = Some VUndefined).
Proof.
  split.
  - exact (proj1 (formatRequest_socket connected_request 0 _ None eq_refl)
             2 _ eq_refl eq_refl).
  - exact (proj2 (formatRequest_socket outgoing_request 0 _ None eq_refl)
             eq_refl).
Defined.

(** X8.  [formatRequest] changes no object: every object of the heap
    holds after the call what it held before, and the record and the
    headers object in it are new objects; the headers of the record
    are never the headers object of the request itself, not even
    without options. *)
Theorem formatRequest_no_mutation (h : heap) (l : loc) (req : object)
    (opts : option options) :
  h !! l = Some req →
  ∃ l' (h' : heap) lh,
    formatRequest (VRef l) opts h = Ok (VRef l') h'
    ∧ (∀ l0 (o : object), h !! l0 = Some o → h' !! l0 = Some o)
    ∧ h !! l' = None
    ∧ field (formatRequest (VRef l) opts h) "headers" = Some (VRef lh)
    ∧ h !! lh = None
    ∧ is_Some (h' !! lh).
Proof.
  intros Hl.
  destruct (formatRequest_full h l req opts Hl)
    as (hs & lh & R & sock & Hrun & Hlh & HR & _).
  eexists _, _, lh.
  split; [exact Hrun |].
  split; [intros l0 o; apply lookup_grow |].
  split; [apply lookup_ge_None; rewrite length_app; lia |].
  split; [unfold field, deref; by rewrite Hrun, lookup_result |].
  split; [by apply lookup_ge_None |].
  exists R. rewrite app_assoc. by apply lookup_grow.
Qed.

Lemma formatRequest_no_mutation_witness :
  ∃ l' (h' : heap) lh,
    formatRequest (VRef 0) None connected_request = Ok (VRef l') h'
    ∧ (∀ l0 (o : object),
         connected_request !! l0 = Some o → h' !! l0 = Some o)
    ∧ connected_request !! l' = None
    ∧ field (formatRequest (VRef 0) None connected_request) "headers"
      = Some (VRef lh)
    ∧ connected_request !! lh = None
    ∧ is_Some (h' !! lh).
Proof.
  exact (formatRequest_no_mutation connected_request 0 _ None eq_refl).
Defined.

Lemma field_object_Ok (h : heap) l (rec : object) k lk :
  h !! l = Some rec →
  rec !! k = Some (VRef lk) →
  field_object (Ok (VRef l) h) k = h !! lk.
Proof. unfold field_object. intros ->. simpl. by intros ->. Qed.

(** X9.  Normalizing a record again is not the identity.  The second
    record keeps [timestamp], [httpVersion], [method] and the same
    headers, and a truthy [url]; but a record has no [socket], so its
    four connection fields are lost, and a falsy [url] becomes
    [undefined]. *)
Theorem format_twice_record (h : heap) (l : loc) (req : object)
    (opts : option options) :
  h !! l = Some req →
  ∃ rec1 rec2 : object,
    deref (formatRequest (VRef l) opts h) = Some rec1
    ∧ deref (format_twice (VRef l) opts h) = Some rec2
    ∧ rec2 !! "timestamp" = rec1 !! "timestamp"
    ∧ rec2 !! "httpVersion" = rec1 !! "httpVersion"
    ∧ rec2 !! "method" = rec1 !! "method"
    ∧ is_Some (field_object (formatRequest (VRef l) opts h) "headers")
    ∧ field_object (format_twice (VRef l) opts h) "headers"
      = field_object (formatRequest (VRef l) opts h) "headers"
    ∧ rec2 !! "url"
      = Some (if truthy (prop rec1 "url") then prop rec1 "url"
              else VUndefined)
    ∧ rec2 !! "remoteAddress" = Some VUndefined
    ∧ rec2 !! "remotePort" = Some VUndefined
    ∧ rec2 !! "localAddress" = Some VUndefined
    ∧ rec2 !! "localPort" = Some VUndefined.
Proof.
  intros Hl.
  destruct (formatRequest_full h l req opts Hl)
    as (hs & lh & R & sock & Hrun & _ & HR & Hagain & _).
  set (rec1 := {[ "timestamp" := prop req "timestamp";
                  "httpVersion" := prop req "httpVersion";
                  "method" := prop req "method";
                  "url" := if truthy (prop req "url") then prop req "url"
                           else prop req "path";
                  "headers" := VRef lh;
                  "remoteAddress" := prop sock "remoteAddress";
                  "remotePort" := prop sock "remotePort";
                  "localAddress" := prop sock "localAddress";
                  "localPort" := prop sock "localPort" ]} : object) in *.
  pose proof (lookup_result h hs rec1) as Hl1.
  assert ((h ++ hs ++ [rec1]) !! lh = Some R) as HR1
    by (rewrite app_assoc; by apply lookup_grow).
  destruct (formatRequest_full _ _ rec1 opts Hl1)
    as (hs2 & lh2 & R2 & sock2 & Hrun2 & _ & HR2 & _ & Hhd2 & _ & _ & Hnone2).
  rewrite (Hnone2 eq_refl) in Hrun2.
  rewrite (Hhd2 lh R eq_refl HR1), Hagain in HR2.
  unfold format_twice. rewrite (bind_Ok _ _ _ _ _ Hrun), Hrun, Hrun2.
  eexists rec1, _.
  split; [exact Hl1 |].
  split; [apply lookup_result |].
  do 3 (split; [done |]).
  rewrite (field_object_Ok _ _ rec1 "headers" lh Hl1 eq_refl), HR1.
  erewrite (field_object_Ok _ _ _ "headers" lh2);
    [| apply lookup_result | reflexivity].
  split; [by eexists |].
  split; [| by repeat split].
  rewrite (app_assoc _ hs2). by apply lookup_grow.
Qed.

Lemma format_twice_record_witness :
  ∃ rec1 rec2 : object,
    deref (formatRequest (VRef 0) None connected_request) = Some rec1
    ∧ deref (format_twice (VRef 0) None connected_request) = Some rec2
    ∧ rec2 !! "timestamp" = rec1 !! "timestamp"
    ∧ rec2 !! "httpVersion" = rec1 !! "httpVersion"
    ∧ rec2 !! "method" = rec1 !! "method"
    ∧ is_Some (field_object (formatRequest (VRef 0) None connected_request)
                 "headers")
    ∧ field_object (format_twice (VRef 0) None connected_request) "headers"
      = field_object (formatRequest (VRef 0) None connected_request) "headers"
    ∧ rec2 !! "url"
      = Some (if truthy (prop rec1 "url") then prop rec1 "url"
              else VUndefined)
    ∧ rec2 !! "remoteAddress" = Some VUndefined
    ∧ rec2 !! "remotePort" = Some VUndefined
    ∧ rec2 !! "localAddress" = Some VUndefined
    ∧ rec2 !! "localPort" = Some VUndefined.
Proof.
  exact (format_twice_record connected_request 0 _ None eq_refl).
Defined.

(** * More on the summaries *)

(** X10.  [stringifyRequest] throws a [TypeError] on a [null] or
    [undefined] request, and also on a request whose [headers] is
    [null]: the default [{}] replaces [undefined] only, and reading
    [host] from [null] throws. *)
Theorem stringifyRequest_throws (h : heap) :
  (∀ v, nullish v = true → stringifyRequest v h = Throw TypeError h)
  ∧ (∀ l (req : object),
       h !! l = Some req →
       req !! "headers" = Some VNull →
       stringifyRequest (VRef l) h = Throw TypeError h).
Proof.
  split.
  - intros v Hv. unfold stringifyRequest.
    by rewrite (bind_Throw _ _ _ _ _ (get_prop_nullish _ _ _ Hv)).
  - intros l req Hl Hnull. unfold stringifyRequest.
    assert (prop req "headers" = VNull) as Hh
      by (unfold prop; by rewrite Hnull).
    by rewrite !(bind_get_prop_ref _ _ _ _ _ Hl), Hh.
Qed.

Lemma stringifyRequest_throws_witness :
  stringifyRequest VUndefined null_headers_request
  = Throw TypeError null_headers_request
  ∧ stringifyRequest (VRef 0) null_headers_request
    = Throw TypeError null_headers_request.
Proof.
  split.
  - exact (proj1 (stringifyRequest_throws null_headers_request)
             VUndefined eq_refl).
  - exact (proj2 (stringifyRequest_throws null_headers_request)
             0 _ eq_refl eq_refl).
Defined.

Lemma stringifyRequest_ref (h : heap) l lh (rec Hd : object) :
  h !! l = Some rec →
  prop rec "headers" = VRef lh →
  h !! lh = Some Hd →
  stringifyRequest (VRef l) h
  = Ok (to_string (prop rec "method") +:+ " " +:+ to_string (prop Hd "host")
          +:+ to_string (prop rec "url")) h.
Proof.
  intros Hl Hh Hlh. unfold stringifyRequest.
  rewrite !(bind_get_prop_ref _ _ _ _ _ Hl), Hh.
  rewrite bind_ret. by rewrite (bind_get_prop_ref _ _ _ _ _ Hlh).
Qed.

(** X11.  Summarising the record of a request renders the method, the
    host and the resolved url ([url], else [path]); the host is the
    request's when the options keep the header [host], and renders as
    [undefined] when they filter it out.  The headers are those of
    [headers], else of [_headers]. *)
Theorem summarize_request_format (h : heap) (l lr : loc) (req Hd : object)
    (opts : option options) :
  h !! l = Some req →
  (if truthy (prop req "headers") then prop req "headers"
   else prop req "_headers") = VRef lr →
  h !! lr = Some Hd →
  ∃ (h' : heap) (host : value),
    summarize_request (VRef l) opts h
    = Ok (to_string (prop req "method") +:+ " " +:+ to_string host
            +:+ to_string (if truthy (prop req "url") then prop req "url"
                           else prop req "path")) h'
    ∧ (kept opts "host" → host = prop Hd "host")
    ∧ (¬ kept opts "host" → host = VUndefined).
Proof.
  intros Hl Hraw Hlr.
  destruct (formatRequest_full h l req opts Hl)
    as (hs & lh & R & sock & Hrun & _ & HR & _ & Hhd & _).
  rewrite (Hhd lr Hd Hraw Hlr) in HR.
  unfold summarize_request. rewrite (bind_Ok _ _ _ _ _ Hrun).
  eexists _, (prop (filtered Hd Hd opts) "host").
  split.
  - erewrite (stringifyRequest_ref _ _ lh);
      [| apply lookup_result | reflexivity
       | rewrite app_assoc; by apply lookup_grow].
    done.
  - unfold prop. split.
    + intros Hkept. f_equal. apply option_eq_Some; intros v.
      rewrite filtered_kept. tauto.
    + intros Hdrop.
      destruct (filtered Hd Hd opts !! "host") as [v |] eqn:Hv; [| done].
      apply filtered_kept in Hv. tauto.
Qed.

Lemma summarize_request_format_witness :
  ∃ (h' : heap) (host : value),
    summarize_request (VRef 0) (Some (Options None (Some [VStr "host"])))
      connected_request
    = Ok ("GET" +:+ " " +:+ to_string host +:+ "/") h'
    ∧ (kept (Some (Options None (Some [VStr "host"]))) "host" →
       host = VStr "a.com")
    ∧ (¬ kept (Some (Options None (Some [VStr "host"]))) "host" →
       host = VUndefined).
Proof.
  exact (summarize_request_format connected_request 0 1 _ _
           (Some (Options None (Some [VStr "host"]))) eq_refl eq_refl eq_refl).
Defined.

(** * Response normalization *)

(** The run of [formatResponse] once the raw headers are chosen. *)
Lemma formatResponse_raw (httpHeaders : value → bool → M value)
    (h h1 : heap) (l : loc) (resp : object) (raw : value) opts :
  h !! l = Some resp →
  h1 !! l = Some resp →
  or_else (prop resp "headers")
    (let* parsed := httpHeaders (VRef l) true in or_else parsed (alloc ∅)) h
  = Ok raw h1 →
  formatResponse httpHeaders (VRef l) opts h
  = Ok (VRef (length (h1 ++ picked (own_props h1 raw) opts
                         ++ [filtered (own_props h1 raw) (enum_props h1 raw) opts])))
       (h1 ++ picked (own_props h1 raw) opts
           ++ [filtered (own_props h1 raw) (enum_props h1 raw) opts]
           ++ [ {[ "timestamp" := prop resp "timestamp";
                   "statusCode" := prop resp "statusCode";
                   "headers" :=
                     VRef (length (h1 ++ picked (own_props h1 raw) opts));
                   "responseTime" := prop resp "responseTime" ]} ]).
Proof.
  intros Hl Hl1 Hraw. unfold formatResponse.
  assert (∀ own enum, filtered own enum (Some (default no_options opts))
                      = filtered own enum opts) as Hopts
    by (intros; apply filtered_default).
  assert (∀ own, picked own (Some (default no_options opts)) = picked own opts)
    as Hpicked by (intros; by destruct opts).
  destruct (default no_options opts) as [wl bl].
  rewrite !(bind_get_prop_ref _ _ _ _ _ Hl).
  rewrite (bind_Ok _ _ _ _ _ Hraw).
  rewrite bind_filterHeaders, Hopts, Hpicked.
  set (tmp := picked (own_props h1 raw) opts).
  set (res := filtered (own_props h1 raw) (enum_props h1 raw) opts).
  assert ((h1 ++ tmp ++ [res]) !! l = Some resp) as Hl2
    by (by apply lookup_grow).
  rewrite !(bind_get_prop_ref _ _ _ _ _ Hl2).
  unfold alloc. by rewrite <- !app_assoc.
Qed.

Lemma deref_formatResponse (h1 : heap) (tmp : heap) (res rec : object) :
  deref (Ok (VRef (length (h1 ++ tmp ++ [res]))) (h1 ++ tmp ++ [res] ++ [rec]))
  = Some rec.
Proof.
  assert (h1 ++ tmp ++ [res] ++ [rec] = (h1 ++ tmp ++ [res]) ++ [rec]) as ->
    by (by rewrite <- !app_assoc).
  apply lookup_alloc.
Qed.

Lemma field_object_formatResponse (h1 tmp : heap) (res : object) ts sc rt :
  field_object
    (Ok (VRef (length (h1 ++ tmp ++ [res])))
        (h1 ++ tmp ++ [res]
            ++ [ {[ "timestamp" := ts;
                    "statusCode" := sc;
                    "headers" := VRef (length (h1 ++ tmp));
                    "responseTime" := rt ]} ]))
    "headers"
  = Some res.
Proof.
  erewrite (field_object_Ok _ _ _ "headers" (length (h1 ++ tmp)));
    [| apply deref_formatResponse | reflexivity].
  rewrite (app_assoc tmp), (app_assoc h1 (tmp ++ [res])).
  apply lookup_grow, lookup_result.
Qed.

(** X12.  When the response has a [headers] object, the record has
    exactly four fields: [statusCode], [timestamp] and [responseTime]
    as they are on the response ([undefined] when missing) and the
    filtered headers.  The collaborator is not consulted: the outcome
    is the same with any other collaborator. *)
Theorem formatResponse_with_headers (httpHeaders : value → bool → M value)
    (h : heap) (l lh : loc) (resp Hd : object) (opts : option options) :
  h !! l = Some resp →
  prop resp "headers" = VRef lh →
  h !! lh = Some Hd →
  ∃ rec : object,
    deref (formatResponse httpHeaders (VRef l) opts h) = Some rec
    ∧ dom rec = response_fields
    ∧ rec !! "statusCode" = Some (prop resp "statusCode")
    ∧ rec !! "timestamp" = Some (prop resp "timestamp")
    ∧ rec !! "responseTime" = Some (prop resp "responseTime")
    ∧ field_object (formatResponse httpHeaders (VRef l) opts h) "headers"
      = deref (filterHeaders (VRef lh) opts h)
    ∧ is_Some (deref (filterHeaders (VRef lh) opts h))
    ∧ ∀ other : value → bool → M value,
        formatResponse other (VRef l) opts h
        = formatResponse httpHeaders (VRef l) opts h.
Proof.
  intros Hl Hh Hlh.
  assert (∀ hh : value → bool → M value,
            or_else (prop resp "headers")
              (let* parsed := hh (VRef l) true in or_else parsed (alloc ∅)) h
            = Ok (VRef lh) h) as Hraw
    by (intros hh; by rewrite Hh).
  pose proof (λ hh, formatResponse_raw hh h h l resp (VRef lh) opts Hl Hl
                      (Hraw hh)) as Hrun.
  rewrite (own_props_ref _ _ _ Hlh) in Hrun. simpl in Hrun. rewrite Hlh in Hrun.
  simpl in Hrun.
  rewrite (deref_filterHeaders _ _ _ _ Hlh), (Hrun httpHeaders).
  eexists. split; [apply deref_formatResponse |].
  split.
  { unfold response_fields. rewrite !dom_insert_L, dom_singleton_L. set_solver. }
  do 3 (split; [done |]).
  split; [apply field_object_formatResponse |].
  split; [by eexists |].
  intros other. by rewrite (Hrun other).
Qed.

Lemma formatResponse_with_headers_witness :
  ∃ rec : object,
    deref (formatResponse failing_parser (VRef 0) None incoming_response)
    = Some rec
    ∧ dom rec = response_fields
    ∧ rec !! "statusCode" = Some (VNum 201)
    ∧ rec !! "timestamp" = Some (VNum 1700000000000)
    ∧ rec !! "responseTime" = Some (VNum 12)
    ∧ field_object (formatResponse failing_parser (VRef 0) None incoming_response)
        "headers"
      = deref (filterHeaders (VRef 1) None incoming_response)
    ∧ is_Some (deref (filterHeaders (VRef 1) None incoming_response))
    ∧ ∀ other : value → bool → M value,
        formatResponse other (VRef 0) None incoming_response
        = formatResponse failing_parser (VRef 0) None incoming_response.
Proof.
  exact (formatResponse_with_headers failing_parser incoming_response 0 1 _ _
           None eq_refl eq_refl eq_refl).
Defined.

(** X13.  When the response has no [headers] and the collaborator
    throws, [formatResponse] throws the same error and leaves the heap
    as the collaborator left it. *)
Theorem formatResponse_parser_throws (httpHeaders : value → bool → M value)
    (h h1 : heap) (l : loc) (resp : object) (opts : option options)
    (e : error) :
  h !! l = Some resp →
  truthy (prop resp "headers") = false →
  httpHeaders (VRef l) true h = Throw e h1 →
  formatResponse httpHeaders (VRef l) opts h = Throw e h1.
Proof.
  intros Hl Hh Hthrow. unfold formatResponse.
  destruct (default no_options opts) as [wl bl].
  rewrite !(bind_get_prop_ref _ _ _ _ _ Hl).
  unfold or_else at 1. rewrite Hh.
  apply bind_Throw. by apply bind_Throw.
Qed.

Lemma formatResponse_parser_throws_witness :
  formatResponse failing_parser (VRef 0) None server_response
  = Throw (Thrown (VStr "malformed header")) server_response.
Proof.
  exact (formatResponse_parser_throws failing_parser server_response
           server_response 0 _ None _ eq_refl eq_refl eq_refl).
Defined.

(** X14.  When the response has no [headers] and the collaborator
    returns, leaving the response as it was, the headers of the record
    are the filtered headers it parsed, and empty when it returned
    something falsy; the other three fields are those of the
    response. *)
Theorem formatResponse_parsed (httpHeaders : value → bool → M value)
    (h h1 : heap) (l : loc) (resp : object) (opts : option options)
    (parsed : value) :
  h !! l = Some resp →
  truthy (prop resp "headers") = false →
  httpHeaders (VRef l) true h = Ok parsed h1 →
  h1 !! l = Some resp →
  ∃ rec : object,
    deref (formatResponse httpHeaders (VRef l) opts h) = Some rec
    ∧ rec !! "statusCode" = Some (prop resp "statusCode")
    ∧ rec !! "timestamp" = Some (prop resp "timestamp")
    ∧ rec !! "responseTime" = Some (prop resp "responseTime")
    ∧ (∀ lp (Hp : object),
         parsed = VRef lp → h1 !! lp = Some Hp →
         field_object (formatResponse httpHeaders (VRef l) opts h) "headers"
         = deref (filterHeaders (VRef lp) opts h1)
         ∧ is_Some (deref (filterHeaders (VRef lp) opts h1)))
    ∧ (truthy parsed = false →
       field_object (formatResponse httpHeaders (VRef l) opts h) "headers"
       = Some ∅).
Proof.
  intros Hl Hh Hparsed Hl1.
  assert (or_else (prop resp "headers")
            (let* p := httpHeaders (VRef l) true in or_else p (alloc ∅)) h
          = Ok (if truthy parsed then parsed else VRef (length h1))
               (h1 ++ if truthy parsed then [] else [∅])) as Hraw.
  { unfold or_else at 1. rewrite Hh.
    rewrite (bind_Ok _ _ _ _ _ Hparsed).
    unfold or_else. destruct (truthy parsed); [| done].
    by rewrite app_nil_r. }
  rewrite (formatResponse_raw _ _ _ _ _ _ opts Hl
             (lookup_grow _ _ _ _ Hl1) Hraw).
  eexists. split; [apply deref_formatResponse |].
  do 3 (split; [done |]).
  rewrite field_object_formatResponse. split.
  - intros lp Hp -> Hlp. simpl. rewrite app_nil_r, Hlp. simpl.
    rewrite (deref_filterHeaders _ _ _ _ Hlp). split; [done | by eexists].
  - intros ->. simpl. rewrite lookup_alloc. simpl.
    by rewrite filtered_empty.
Qed.

Lemma formatResponse_parsed_witness :
  ∃ rec : object,
    deref (formatResponse (parser_of {[ "server" := VStr "node" ]}) (VRef 0)
             None server_response) = Some rec
    ∧ rec !! "statusCode" = Some (VNum 404)
    ∧ rec !! "timestamp" = Some VUndefined
    ∧ rec !! "responseTime" = Some VUndefined
    ∧ (∀ lp (Hp : object),
         VRef 1 = VRef lp →
         (server_response ++ [ {[ "server" := VStr "node" ]} ]) !! lp = Some Hp →
         field_object
           (formatResponse (parser_of {[ "server" := VStr "node" ]}) (VRef 0)
              None server_response) "headers"
         = deref (filterHeaders (VRef lp) None
                    (server_response ++ [ {[ "server" := VStr "node" ]} ]))
         ∧ is_Some (deref (filterHeaders (VRef lp) None
                             (server_response ++ [ {[ "server" := VStr "node" ]} ]))))
    ∧ (truthy (VRef 1) = false →
       field_object
         (formatResponse (parser_of {[ "server" := VStr "node" ]}) (VRef 0)
            None server_response) "headers"
       = Some ∅).
Proof.
  exact (formatResponse_parsed (parser_of {[ "server" := VStr "node" ]})
           server_response
           (server_response ++ [ {[ "server" := VStr "node" ]} ])
           0 _ None (VRef 1) eq_refl eq_refl eq_refl eq_refl).
Defined.

Lemma formatResponse_statusCode (httpHeaders : value → bool → M value)
    (h h' : heap) (l : loc) (resp : object) opts (r : value) :
  h !! l = Some resp →
  formatResponse httpHeaders (VRef l) opts h = Ok r h' →
  ∃ l' (rec : object),
    r = VRef l' ∧ h' !! l' = Some rec
    ∧ rec !! "statusCode" = Some (prop resp "statusCode").
Proof.
  intros Hl. unfold formatResponse.
  destruct (default no_options opts) as [wl bl].
  rewrite !(bind_get_prop_ref _ _ _ _ _ Hl).
  unfold or_else at 1. destruct (truthy (prop resp "headers")).
  - rewrite bind_ret, bind_filterHeaders.
    rewrite !(bind_Ok _ _ _ _ _ (get_prop_defined (VRef l) _ _ eq_refl)).
    unfold alloc. intros [= <- <-].
    eexists _, _. split; [done |]. split; [apply lookup_alloc | done].
  - destruct (httpHeaders (VRef l) true h) as [parsed h1 | e h1] eqn:Hp.
    2: { by rewrite (bind_Throw _ _ _ _ _ (bind_Throw _ _ _ _ _ Hp)). }
    assert ((let* p := httpHeaders (VRef l) true in or_else p (alloc ∅)) h
            = Ok (if truthy parsed then parsed else VRef (length h1))
                 (h1 ++ if truthy parsed then [] else [∅])) as Hraw.
    { rewrite (bind_Ok _ _ _ _ _ Hp). unfold or_else.
      destruct (truthy parsed); [| done]. by rewrite app_nil_r. }
    rewrite (bind_Ok _ _ _ _ _ Hraw), bind_filterHeaders.
    rewrite !(bind_Ok _ _ _ _ _ (get_prop_defined (VRef l) _ _ eq_refl)).
    unfold alloc. intros [= <- <-].
    eexists _, _. split; [done |]. split; [apply lookup_alloc | done].
Qed.

Lemma stringifyResponse_ref (STATUS_CODES : object) (h : heap) l (o : object) :
  h !! l = Some o →
  stringifyResponse STATUS_CODES (VRef l) h
  = Ok (to_string (prop o "statusCode") +:+ " ("
          +:+ to_string (prop STATUS_CODES (to_string (prop o "statusCode")))
          +:+ ")") h.
Proof.
  intros Hl. unfold stringifyResponse.
  by rewrite (bind_get_prop_ref _ _ _ _ _ Hl).
Qed.

(** X15.  Whenever [formatResponse] returns a record, summarising the
    record gives the same text as summarising the response itself:
    the status code is read before the collaborator runs and is
    copied unchanged. *)
Theorem stringifyResponse_of_record (httpHeaders : value → bool → M value)
    (STATUS_CODES : object) (h h' : heap) (l : loc) (resp : object)
    (opts : option options) (r : value) :
  h !! l = Some resp →
  formatResponse httpHeaders (VRef l) opts h = Ok r h' →
  ∃ s : string,
    stringifyResponse STATUS_CODES (VRef l) h = Ok s h
    ∧ stringifyResponse STATUS_CODES r h' = Ok s h'.
Proof.
  intros Hl Hrun.
  destruct (formatResponse_statusCode _ _ _ _ _ _ _ Hl Hrun)
    as (l' & rec & -> & Hl' & Hcode).
  eexists. split; [by apply stringifyResponse_ref |].
  rewrite (stringifyResponse_ref _ _ _ _ Hl').
  assert (prop rec "statusCode" = prop resp "statusCode") as ->
    by (unfold prop at 1; by rewrite Hcode).
  done.
Qed.

Lemma stringifyResponse_of_record_witness :
  ∃ (r : value) (h' : heap) (s : string),
    formatResponse no_parsed_headers (VRef 0) None server_response = Ok r h'
    ∧ stringifyResponse STATUS_CODES_excerpt (VRef 0) server_response
      = Ok s server_response
    ∧ stringifyResponse STATUS_CODES_excerpt r h' = Ok s h'.
Proof.
  destruct (formatResponse no_parsed_headers (VRef 0) None server_response)
    as [r h' | e h'] eqn:Hrun; [| discriminate Hrun].
  destruct (stringifyResponse_of_record no_parsed_headers STATUS_CODES_excerpt
              server_response h' 0 _ None r eq_refl Hrun) as (s & Hs & Hs').
  by exists r, h', s.
Defined.

(** X16.  [stringifyResponse] throws, a [TypeError], exactly on [null]
    and [undefined]; for any other argument it returns and allocates
    nothing.  A response object without [statusCode] is no error: the
    code renders as [undefined], and so does its phrase when the table
    has no entry under that name. *)
Theorem stringifyResponse_throws (STATUS_CODES : object) (h : heap) :
  (∀ v, nullish v = true →
        stringifyResponse STATUS_CODES v h = Throw TypeError h)
  ∧ (∀ v, nullish v = false →
          ∃ s, stringifyResponse STATUS_CODES v h = Ok s h)
  ∧ (∀ l (resp : object),
       h !! l = Some resp →
       resp !! "statusCode" = None →
       STATUS_CODES !! "undefined" = None →
       stringifyResponse STATUS_CODES (VRef l) h
       = Ok "undefined (undefined)" h).
Proof.
  split; [| split].
  - intros v Hv. unfold stringifyResponse.
    by rewrite (bind_Throw _ _ _ _ _ (get_prop_nullish _ _ _ Hv)).
  - intros v Hv. unfold stringifyResponse.
    rewrite (bind_Ok _ _ _ _ _ (get_prop_defined _ _ _ Hv)). by eexists.
  - intros l resp Hl Hcode Hphrase.
    rewrite (stringifyResponse_ref _ _ _ _ Hl). unfold prop.
    rewrite Hcode. simpl. by rewrite Hphrase.
Qed.

Lemma stringifyResponse_throws_witness :
  stringifyResponse STATUS_CODES_excerpt VNull bare_request
  = Throw TypeError bare_request
  ∧ (∃ s, stringifyResponse STATUS_CODES_excerpt (VNum 404) bare_request
          = Ok s bare_request)
  ∧ stringifyResponse STATUS_CODES_excerpt (VRef 0) bare_request
    = Ok "undefined (undefined)" bare_request.
Proof.
  pose proof (stringifyResponse_throws STATUS_CODES_excerpt bare_request)
    as (Hthrow & Hreturn & Hmissing).
  split; [exact (Hthrow VNull eq_refl) |].
  split; [exact (Hreturn (VNum 404) eq_refl) |].
  exact (Hmissing 0 ∅ eq_refl eq_refl eq_refl).
Defined.
